(** * PopperContent: configuration translator, lifecycle and render step

    A shallow embedding of [packages/components/popper/src/popperContent.ts].

    JavaScript numbers are pixel quantities here and are modelled by [Z];
    [undefined] and [null] are modelled by [None]; reactive refs are fields
    of the component instance; a JavaScript object whose key set is fixed is
    a record, one whose keys are chosen by the caller is a [gmap]. *)

From stdpp Require Import gmap strings list fin_maps pretty.

Local Open Scope Z_scope.
Local Open Scope string_scope.

(** ** DOM handles and callbacks *)

(** A mounted DOM node, identified by a handle. *)
Inductive Element := DomNode (id : nat).

#[global] Instance Element_eq_dec : EqDecision Element.
Proof. solve_decision. Defined.

(** A caller-supplied function, identified by a handle; calling it is an
    effect recorded in the instance's call log. *)
Inductive Callback := UserFn (id : nat).

#[global] Instance Callback_eq_dec : EqDecision Callback.
Proof. solve_decision. Defined.

(** ** Props *)

Inductive Side := SideTop | SideRight | SideBottom | SideLeft.
Inductive Align := AlignStart | AlignCenter | AlignEnd.
Inductive Sticky := StickyPartial | StickyAlways.
Inductive UpdatePositionStrategy := StrategyOptimized | StrategyAlways.

#[global] Instance Align_eq_dec : EqDecision Align.
Proof. solve_decision. Defined.
#[global] Instance Sticky_eq_dec : EqDecision Sticky.
Proof. solve_decision. Defined.

(** [type Boundary = Element | null] *)
Definition Boundary := option Element.

(** [collisionBoundary?: Boundary | Boundary[]] *)
Inductive CollisionBoundary :=
| BoundaryOne (b : Boundary)
| BoundaryArray (bs : list Boundary).

(** [Padding = number | Partial<SideObject>]: a scalar, or an object holding
    any of the keys top, right, bottom, left.  A key that is present holds
    a number or, as [Partial] admits, the value undefined, which is [None];
    a key that is absent is not in the map. *)
Inductive Padding :=
| PaddingNumber (n : Z)
| PaddingObject (o : gmap string (option Z)).

Record Props := {
  side : Side;
  sideOffset : Z;
  align : Align;
  alignOffset : Z;
  arrowPadding : Z;
  avoidCollisions : bool;
  collisionBoundary : CollisionBoundary;
  collisionPadding : Padding;
  sticky : Sticky;
  hideWhenDetached : bool;
  updatePositionStrategy : UpdatePositionStrategy;
  onPlaced : option Callback;
}.

(** The [default] entries of the component's [props] declaration. *)
Definition defaultProps : Props := {|
  side := SideBottom;
  sideOffset := 0;
  align := AlignCenter;
  alignOffset := 0;
  arrowPadding := 0;
  avoidCollisions := true;
  collisionBoundary := BoundaryArray [];
  collisionPadding := PaddingNumber 0;
  sticky := StickyPartial;
  hideWhenDetached := false;
  updatePositionStrategy := StrategyOptimized;
  onPlaced := None;
|}.

(** ** The positioning engine's middleware *)

Record DetectOverflowOptions := {
  padding : Padding;
  boundary : list Element;
  altBoundary : bool;
}.

Module FloatingUI.

Record OffsetOptions := { mainAxis : Z; alignmentAxis : Z }.

(** The value of [limitShift()], called without options. *)
Inductive Limiter := limitShift.

(** The options of [shift]; [detect] holds the three keys spread from
    [detectOverflowOptions], none of which is a key written before it. *)
Record ShiftOptions := {
  shift_mainAxis : bool;
  shift_crossAxis : bool;
  limiter : option Limiter;
  shift_detect : DetectOverflowOptions;
}.

Record ArrowOptions := { element : Element; arrow_padding : Z }.

Record TransformOriginOptions := { arrowWidth : Z; arrowHeight : Z }.

Inductive HideStrategy := referenceHidden | escaped.

Record HideOptions := {
  strategy : HideStrategy;
  hide_detect : DetectOverflowOptions;
}.

(** A middleware object, by the factory that built it, with the options
    that configure the engine.  The [apply] callback that [size] is given
    besides them only writes custom properties on the floating element's
    style and is not among these options. *)
Inductive Middleware :=
| offset (o : OffsetOptions)
| shift (o : ShiftOptions)
| flip (o : DetectOverflowOptions)
| size (o : DetectOverflowOptions)
| arrow (o : ArrowOptions)
| transformOrigin (o : TransformOriginOptions)
| hide (o : HideOptions).

(** The [name] field of a middleware object, under which the engine files
    the data the step returns. *)
Definition name (m : Middleware) : string :=
  match m with
  | offset _ => "offset"
  | shift _ => "shift"
  | flip _ => "flip"
  | size _ => "size"
  | arrow _ => "arrow"
  | transformOrigin _ => "transformOrigin"
  | hide _ => "hide"
  end.

End FloatingUI.

Abbreviation Middleware := FloatingUI.Middleware.

(** ** Helpers imported from [./utils] and [@oku-ui/use-composable] *)

(** Modelled from the spec: [isNotNull] of [./utils], which is not part of
    the source at hand; "the filtered list of non-null boundary elements". *)
Definition isNotNull {A} (v : option A) : bool :=
  match v with Some _ => true | None => false end.

(** Modelled from the spec: [isDefined] of [./utils], which is not part of
    the source at hand; "any null/undefined middleware entries are filtered
    out before being handed to the engine". *)
Definition isDefined {A} (v : option A) : bool :=
  match v with Some _ => true | None => false end.

(** [array.filter(pred)] for a type guard [pred]: the kept entries, in
    order, at the narrowed type. *)
Fixpoint filter_guard {A} (pred : option A → bool) (l : list (option A)) : list A :=
  match l with
  | [] => []
  | v :: l' =>
      if pred v
      then match v with Some a => a :: filter_guard pred l' | None => filter_guard pred l' end
      else filter_guard pred l'
  end.

(** Modelled from the spec: [useCallbackRef] of [@oku-ui/use-composable],
    which is not part of the source at hand; "a stable-callback helper
    (wraps a possibly-changing callback reference so identity changes don't
    cause spurious re-subscription)".  The wrapper it returns never changes
    identity; calling it calls the callback it was given, if any. *)
Definition useCallbackRef (callback : option Callback) : option Callback := callback.

(** The measured size of an element as [useSize] reports it. *)
Record Size := { width : Z; height : Z }.

(** [v || 0] for a number that may be undefined: undefined and 0 are falsy. *)
Definition or_zero (v : option Z) : Z :=
  match v with
  | Some n => if decide (n = 0) then 0 else n
  | None => 0
  end.

(** [v !== 0] for a number that may be undefined: undefined is not a
    number, so it is not strictly equal to 0. *)
Definition strict_neq_zero (v : option Z) : bool :=
  match v with
  | Some n => negb (Z.eqb n 0)
  | None => true
  end.

(** [{ ...base, ...o }]: the keys of both objects, the later spread winning. *)
Definition spread (base o : gmap string (option Z)) : gmap string (option Z) :=
  o ∪ base.

(** [toReturn.push(m)] *)
Definition push {A} (arr : list A) (m : A) : list A := arr ++ [m].

(** ** What [useFloating] returns *)

(** [middlewareData.arrow]: the offset along one axis, and the center offset. *)
Record ArrowData := {
  arrow_x : option Z;
  arrow_y : option Z;
  centerOffset : Z;
}.

Record TransformOriginData := { origin_x : string; origin_y : string }.

Record HideData := { referenceHidden : option bool }.

(** The engine's [middlewareData]: one optional entry per middleware name
    this component reads. *)
Record MiddlewareData := {
  md_arrow : option ArrowData;
  md_transformOrigin : option TransformOriginData;
  md_hide : option HideData;
}.

Record FloatingStyles := {
  fs_position : string;
  fs_left : string;
  fs_top : string;
  fs_transform : option string;
}.

(** The refs [useFloating] returns that this component reads. *)
Record UseFloatingReturn := {
  x : Z;
  y : Z;
  floatingStyles : FloatingStyles;
  isPositioned : bool;
  middlewareData : MiddlewareData;
}.

(** The refs before the engine has computed a position: [strategy] is
    'fixed', nothing is positioned and no middleware has reported data. *)
Definition useFloating_initial : UseFloatingReturn := {|
  x := 0;
  y := 0;
  floatingStyles :=
    {| fs_position := "fixed"; fs_left := "0"; fs_top := "0"; fs_transform := None |};
  isPositioned := false;
  middlewareData := {| md_arrow := None; md_transformOrigin := None; md_hide := None |};
|}.

(** ** The component instance *)

(** What [setup] creates: the reactive props (read through [toRefs]), the
    refs, the constants computed once in the body of [setup], what
    [useFloating] returned, and the calls made to the caller's callback. *)
Record Instance := {
  props : Props;
  content : option Element;
  newRef : option Element;
  arrow : option Element;
  arrowSize : option Size;
  detectOverflowOptions : DetectOverflowOptions;
  handlePlaced : option Callback;
  floating : UseFloatingReturn;
  contentZIndex : option string;
  calls : list Callback;
}.

(** *** Writing a ref, calling a function *)

Definition set_props (p : Props) (i : Instance) : Instance :=
  {| props := p; content := content i; newRef := newRef i; arrow := arrow i;
     arrowSize := arrowSize i; detectOverflowOptions := detectOverflowOptions i;
     handlePlaced := handlePlaced i; floating := floating i;
     contentZIndex := contentZIndex i; calls := calls i |}.

Definition set_content (v : option Element) (i : Instance) : Instance :=
  {| props := props i; content := v; newRef := newRef i; arrow := arrow i;
     arrowSize := arrowSize i; detectOverflowOptions := detectOverflowOptions i;
     handlePlaced := handlePlaced i; floating := floating i;
     contentZIndex := contentZIndex i; calls := calls i |}.

Definition set_newRef (v : option Element) (i : Instance) : Instance :=
  {| props := props i; content := content i; newRef := v; arrow := arrow i;
     arrowSize := arrowSize i; detectOverflowOptions := detectOverflowOptions i;
     handlePlaced := handlePlaced i; floating := floating i;
     contentZIndex := contentZIndex i; calls := calls i |}.

Definition set_arrow (v : option Element) (i : Instance) : Instance :=
  {| props := props i; content := content i; newRef := newRef i; arrow := v;
     arrowSize := arrowSize i; detectOverflowOptions := detectOverflowOptions i;
     handlePlaced := handlePlaced i; floating := floating i;
     contentZIndex := contentZIndex i; calls := calls i |}.

Definition set_arrowSize (v : option Size) (i : Instance) : Instance :=
  {| props := props i; content := content i; newRef := newRef i; arrow := arrow i;
     arrowSize := v; detectOverflowOptions := detectOverflowOptions i;
     handlePlaced := handlePlaced i; floating := floating i;
     contentZIndex := contentZIndex i; calls := calls i |}.

Definition set_floating (v : UseFloatingReturn) (i : Instance) : Instance :=
  {| props := props i; content := content i; newRef := newRef i; arrow := arrow i;
     arrowSize := arrowSize i; detectOverflowOptions := detectOverflowOptions i;
     handlePlaced := handlePlaced i; floating := v;
     contentZIndex := contentZIndex i; calls := calls i |}.

Definition set_contentZIndex (v : option string) (i : Instance) : Instance :=
  {| props := props i; content := content i; newRef := newRef i; arrow := arrow i;
     arrowSize := arrowSize i; detectOverflowOptions := detectOverflowOptions i;
     handlePlaced := handlePlaced i; floating := floating i;
     contentZIndex := v; calls := calls i |}.

(** Calling a function that may be undefined, [f?.()]. *)
Definition call (f : option Callback) (i : Instance) : Instance :=
  match f with
  | Some fn =>
      {| props := props i; content := content i; newRef := newRef i; arrow := arrow i;
         arrowSize := arrowSize i; detectOverflowOptions := detectOverflowOptions i;
         handlePlaced := handlePlaced i; floating := floating i;
         contentZIndex := contentZIndex i; calls := calls i ++ [fn] |}
  | None => i
  end.

(** [watch([isPositioned, handlePlaced], ...)] evaluates its sources when it
    is created and each time it runs again: a source that is a ref is read,
    a source that is a function is taken for a getter and called.
    [isPositioned] is a ref; [handlePlaced], which the watcher's callback
    calls as [handlePlaced?.()], is a function. *)
Definition placed_sources (i : Instance) : Instance := call (handlePlaced i) i.

(** Two instances that differ at most in their call log. *)
Definition same_but_calls (i j : Instance) : Prop :=
  props i = props j
  ∧ content i = content j
  ∧ newRef i = newRef j
  ∧ arrow i = arrow j
  ∧ arrowSize i = arrowSize j
  ∧ detectOverflowOptions i = detectOverflowOptions j
  ∧ handlePlaced i = handlePlaced j
  ∧ floating i = floating j
  ∧ contentZIndex i = contentZIndex j.

(** The body of [setup], up to the values it hands to the render function. *)
Definition setup (props0 : Props) : Instance :=
  let collisionPaddingProp := collisionPadding props0 in
  let collisionPadding :=
    match collisionPaddingProp with
    | PaddingNumber n => PaddingNumber n
    | PaddingObject o =>
        PaddingObject
          (spread
             (list_to_map
                [("top", Some 0); ("right", Some 0); ("bottom", Some 0); ("left", Some 0)])
             o)
    end in
  let boundary :=
    match collisionBoundary props0 with
    | BoundaryArray bs => bs
    | BoundaryOne b => [b]
    end in
  let hasExplicitBoundaries := bool_decide (0 < length boundary)%nat in
  let detectOverflowOptions := {|
    padding := collisionPadding;
    boundary := filter_guard isNotNull boundary;
    altBoundary := hasExplicitBoundaries;
  |} in
  let i :=
    {| props := props0;
       content := None;
       newRef := None;
       arrow := None;
       arrowSize := None;
       detectOverflowOptions := detectOverflowOptions;
       handlePlaced := useCallbackRef (onPlaced props0);
       floating := useFloating_initial;
       contentZIndex := None;
       calls := [] |} in
  placed_sources i.

(** *** Computed values *)

Definition arrowWidth (i : Instance) : Z := or_zero (width <$> arrowSize i).
Definition arrowHeight (i : Instance) : Z := or_zero (height <$> arrowSize i).

(** The computed [_middleware]: the list handed to the engine. *)
Definition _middleware (i : Instance) : list Middleware :=
  let toReturn : list (option Middleware) := [] in
  let toReturn :=
    push toReturn
      (Some (FloatingUI.offset
        {| FloatingUI.mainAxis := sideOffset (props i) + arrowHeight i;
           FloatingUI.alignmentAxis := alignOffset (props i) |})) in
  let toReturn :=
    if avoidCollisions (props i) then
      let toReturn :=
        push toReturn
          (Some (FloatingUI.shift
            {| FloatingUI.shift_mainAxis := true;
               FloatingUI.shift_crossAxis := false;
               FloatingUI.limiter :=
                 if decide (sticky (props i) = StickyPartial)
                 then Some FloatingUI.limitShift else None;
               FloatingUI.shift_detect := detectOverflowOptions i |})) in
      push toReturn (Some (FloatingUI.flip (detectOverflowOptions i)))
    else toReturn in
  let toReturn := push toReturn (Some (FloatingUI.size (detectOverflowOptions i))) in
  let toReturn :=
    match arrow i with
    | Some arrow_value =>
        push toReturn
          (Some (FloatingUI.arrow
            {| FloatingUI.element := arrow_value;
               FloatingUI.arrow_padding := arrowPadding (props i) |}))
    | None => toReturn
    end in
  let toReturn :=
    push toReturn
      (Some (FloatingUI.transformOrigin
        {| FloatingUI.arrowWidth := arrowWidth i;
           FloatingUI.arrowHeight := arrowHeight i |})) in
  let toReturn :=
    if hideWhenDetached (props i) then
      push toReturn
        (Some (FloatingUI.hide
          {| FloatingUI.strategy := FloatingUI.referenceHidden;
             FloatingUI.hide_detect := detectOverflowOptions i |}))
    else toReturn in
  filter_guard isDefined toReturn.

Definition arrowX (i : Instance) : string :=
  pretty (or_zero (md_arrow (middlewareData (floating i)) ≫= arrow_x)) +:+ "px".

Definition arrowY (i : Instance) : string :=
  pretty (or_zero (md_arrow (middlewareData (floating i)) ≫= arrow_y)) +:+ "px".

Definition cannotCenterArrow (i : Instance) : bool :=
  strict_neq_zero (centerOffset <$> md_arrow (middlewareData (floating i))).

(** The value given to [PopperContentProvider], as far as it is derived in
    this file. *)
Record PopperContentContextValue := {
  ctx_arrowX : string;
  ctx_arrowY : string;
  ctx_shouldHideArrow : bool;
  ctx_arrow : option Element;
  ctx_x : Z;
  ctx_y : Z;
}.

Definition provided (i : Instance) : PopperContentContextValue := {|
  ctx_arrowX := arrowX i;
  ctx_arrowY := arrowY i;
  ctx_shouldHideArrow := cannotCenterArrow i;
  ctx_arrow := arrow i;
  ctx_x := x (floating i);
  ctx_y := y (floating i);
|}.

(** *** The render function *)

(** The element refs of [setup] that a vnode can name in its [ref] prop. *)
Inductive TemplateRef := Ref_newRef | Ref_content.

Record WrapperStyle := {
  css_position : string;
  css_left : string;
  css_top : string;
  css_transform : option string;
  css_minWidth : string;
  css_zIndex : option string;
  css_transform_origin : string;
}.

Record ContentStyle := {
  css_animation : option string;
  css_opacity : option Z;
}.

(** The two nested [div] vnodes: the wrapper and, inside it, the content. *)
Record VNodes := {
  wrapper_ref : option TemplateRef;
  wrapper_style : WrapperStyle;
  content_ref : option TemplateRef;
  content_style : ContentStyle;
}.

(** [[a, b].join(' ')]: an undefined entry joins as the empty string. *)
Definition join_space (a b : option string) : string :=
  default "" a +:+ " " +:+ default "" b.

Definition originalReturn (i : Instance) : VNodes :=
  let f := floating i in
  {| wrapper_ref := Some Ref_newRef;
     wrapper_style := {|
       css_position := fs_position (floatingStyles f);
       css_left := fs_left (floatingStyles f) +:+ "px";
       css_top := fs_top (floatingStyles f) +:+ "px";
       css_transform :=
         if isPositioned f then fs_transform (floatingStyles f)
         else Some "translate(0, -200%)";
       css_minWidth := "max-content";
       css_zIndex := contentZIndex i;
       css_transform_origin :=
         join_space (origin_x <$> md_transformOrigin (middlewareData f))
                    (origin_y <$> md_transformOrigin (middlewareData f));
     |};
     content_ref := None;
     content_style := {|
       css_animation := if negb (isPositioned f) then Some "none" else None;
       css_opacity :=
         match md_hide (middlewareData f) ≫= referenceHidden with
         | Some true => Some 0
         | _ => None
         end;
     |} |}.

(** ** Lifecycle *)

(** The browser, as far as the component asks it:
    [window.getComputedStyle(el).zIndex]. *)
Record Window := { getComputedStyle_zIndex : Element → string }.

(** The callback of [watch([isPositioned, handlePlaced], ...)]. *)
Definition on_isPositioned (i : Instance) : Instance :=
  if isPositioned (floating i) then call (handlePlaced i) i else i.

(** The callback of [watch(content, ...)]. *)
Definition on_content (window : Window) (i : Instance) : Instance :=
  match content i with
  | Some content_value =>
      set_contentZIndex (Some (getComputedStyle_zIndex window content_value)) i
  | None => i
  end.

(** The renderer binds the element created for a vnode to the ref the vnode
    names, if it names one. *)
Definition bind_ref (r : option TemplateRef) (el : Element) (i : Instance) : Instance :=
  match r with
  | Some Ref_newRef => set_newRef (Some el) i
  | Some Ref_content => set_content (Some el) i
  | None => i
  end.

(** What happens to an instance after [setup]; each event is processed to
    completion, watchers included, before the next one. *)
Inductive Event :=
| PropsChanged (p : Props)
    (** the parent passes new props *)
| ArrowRegistered (el : option Element)
    (** a descendant writes the provided [arrow] ref *)
| ArrowMeasured (s : option Size)
    (** [useSize] reports the arrow's size *)
| Rendered (wrapperEl contentEl : Element)
    (** the renderer mounts or patches the vnodes of the render function *)
| FloatingUpdated (r : UseFloatingReturn)
    (** the engine writes the refs [useFloating] returned *).

(** A watcher runs again when a ref it has read has changed: it evaluates
    its sources, and as the value of one of them differs from the one it
    held, it runs its callback. *)
Definition step (window : Window) (e : Event) (i : Instance) : Instance :=
  match e with
  | PropsChanged p => set_props p i
  | ArrowRegistered el => set_arrow el i
  | ArrowMeasured s => set_arrowSize s i
  | Rendered wrapperEl contentEl =>
      let vnodes := originalReturn i in
      let i' := bind_ref (content_ref vnodes) contentEl
                  (bind_ref (wrapper_ref vnodes) wrapperEl i) in
      if decide (content i' = content i) then i' else on_content window i'
  | FloatingUpdated r =>
      let i' := set_floating r i in
      if decide (isPositioned r = isPositioned (floating i)) then i'
      else on_isPositioned (placed_sources i')
  end.

(** The instance after a sequence of events, oldest first. *)
Fixpoint run (window : Window) (evs : list Event) (i : Instance) : Instance :=
  match evs with
  | [] => i
  | e :: evs' => run window evs' (step window e i)
  end.

(** The engine files a step's data under the step's name, so it reports
    arrow data only if the list it was handed holds an arrow step. *)
Definition engine_reports_given_steps (i : Instance) (e : Event) : Prop :=
  match e with
  | FloatingUpdated r =>
      is_Some (md_arrow (middlewareData r)) →
      "arrow" ∈ (FloatingUI.name <$> _middleware i)
  | _ => True
  end.

(** Every engine update of the run reports data of the steps it was given. *)
Fixpoint engine_faithful (window : Window) (evs : list Event) (i : Instance) : Prop :=
  match evs with
  | [] => True
  | e :: evs' =>
      engine_reports_given_steps i e ∧ engine_faithful window evs' (step window e i)
  end.

(** No event of the run registers an arrow element. *)
Definition no_arrow_registered (evs : list Event) : Prop :=
  Forall (λ e, match e with ArrowRegistered (Some _) => False | _ => True end) evs.

(** The number of times the positioned flag goes from false to true. *)
Fixpoint rising_edges (positioned : bool) (evs : list Event) : nat :=
  match evs with
  | [] => 0
  | FloatingUpdated r :: evs' =>
      (if negb positioned && isPositioned r then 1 else 0)
      + rising_edges (isPositioned r) evs'
  | _ :: evs' => rising_edges positioned evs'
  end%nat.

(** The number of times the positioned flag goes from true to false. *)
Fixpoint falling_edges (positioned : bool) (evs : list Event) : nat :=
  match evs with
  | [] => 0
  | FloatingUpdated r :: evs' =>
      (if positioned && negb (isPositioned r) then 1 else 0)
      + falling_edges (isPositioned r) evs'
  | _ :: evs' => falling_edges positioned evs'
  end%nat.

(** ** Concrete inputs *)

Definition with_collisionPadding (v : Padding) (p : Props) : Props :=
  {| side := side p; sideOffset := sideOffset p; align := align p;
     alignOffset := alignOffset p; arrowPadding := arrowPadding p;
     avoidCollisions := avoidCollisions p; collisionBoundary := collisionBoundary p;
     collisionPadding := v; sticky := sticky p;
     hideWhenDetached := hideWhenDetached p;
     updatePositionStrategy := updatePositionStrategy p; onPlaced := onPlaced p |}.

Definition with_collisionBoundary (v : CollisionBoundary) (p : Props) : Props :=
  {| side := side p; sideOffset := sideOffset p; align := align p;
     alignOffset := alignOffset p; arrowPadding := arrowPadding p;
     avoidCollisions := avoidCollisions p; collisionBoundary := v;
     collisionPadding := collisionPadding p; sticky := sticky p;
     hideWhenDetached := hideWhenDetached p;
     updatePositionStrategy := updatePositionStrategy p; onPlaced := onPlaced p |}.

Definition with_onPlaced (v : option Callback) (p : Props) : Props :=
  {| side := side p; sideOffset := sideOffset p; align := align p;
     alignOffset := alignOffset p; arrowPadding := arrowPadding p;
     avoidCollisions := avoidCollisions p; collisionBoundary := collisionBoundary p;
     collisionPadding := collisionPadding p; sticky := sticky p;
     hideWhenDetached := hideWhenDetached p;
     updatePositionStrategy := updatePositionStrategy p; onPlaced := v |}.

(** Props that differ from the defaults in every prop the list reads. *)
Definition changedProps : Props := {|
  side := SideTop;
  sideOffset := 8;
  align := AlignStart;
  alignOffset := 2;
  arrowPadding := 4;
  avoidCollisions := true;
  collisionBoundary := BoundaryArray [];
  collisionPadding := PaddingNumber 0;
  sticky := StickyAlways;
  hideWhenDetached := true;
  updatePositionStrategy := StrategyOptimized;
  onPlaced := None;
|}.

(** A window in which every element's computed z-index is 10. *)
Definition window_z10 : Window := {| getComputedStyle_zIndex := λ _, "10" |}.

(** Middleware data with no entry, and with an arrow entry. *)
Definition no_data : MiddlewareData :=
  {| md_arrow := None; md_transformOrigin := None; md_hide := None |}.

Definition arrow_data (ax : Z) (center : Z) : MiddlewareData :=
  {| md_arrow := Some {| arrow_x := Some ax; arrow_y := None; centerOffset := center |};
     md_transformOrigin := None; md_hide := None |}.

(** What the engine writes once it has placed the content at a point. *)
Definition positioned_at (px py : Z) (md : MiddlewareData) : UseFloatingReturn := {|
  x := px;
  y := py;
  floatingStyles :=
    {| fs_position := "fixed"; fs_left := "0"; fs_top := "0";
       fs_transform :=
         Some ("translate(" +:+ pretty px +:+ "px, " +:+ pretty py +:+ "px)") |};
  isPositioned := true;
  middlewareData := md;
|}.

(** ** The order the specification fixes for the middleware list *)

(** Following the specification's words: offset, then shift and flip if
    avoiding collisions, then size, then arrow if an arrow element is
    registered, then transform-origin, then hide if hide-when-detached. *)
Definition fixed_order (avoiding has_arrow hiding : bool) : list string :=
  ["offset"]
  ++ (if avoiding then ["shift"; "flip"] else [])
  ++ ["size"]
  ++ (if has_arrow then ["arrow"] else [])
  ++ ["transformOrigin"]
  ++ (if hiding then ["hide"] else []).

(** The names of the steps handed to the engine, in order. *)
Definition step_names (i : Instance) : list string :=
  FloatingUI.name <$> _middleware i.

(** The entries of [collisionBoundary] as the caller supplied them: a value
    that is not an array is one entry. *)
Definition supplied_boundaries (cb : CollisionBoundary) : list Boundary :=
  match cb with
  | BoundaryOne b => [b]
  | BoundaryArray bs => bs
  end.

(** The four edges of a padding record. *)
Definition edges : list string := ["top"; "right"; "bottom"; "left"].

(** Following the specification's words: the padding put into the
    configuration is a four-edge record, a bare number giving that number on
    all four edges, a partial record its own edges and zero elsewhere. *)
Definition four_edge_normalized (input output : Padding) : Prop :=
  ∃ o, output = PaddingObject o ∧
    ∀ e, e ∈ edges →
      o !! e = Some (Some match input with
                          | PaddingNumber n => n
                          | PaddingObject given => default 0 (given !! e ≫= id)
                          end).

(** ** The requested placement *)

(** Modelled from the spec: the values of the [Side] type of [./utils],
    which is not part of the source at hand; "desired side ∈
    {top,right,bottom,left}". *)
Definition side_value (s : Side) : string :=
  match s with
  | SideTop => "top"
  | SideRight => "right"
  | SideBottom => "bottom"
  | SideLeft => "left"
  end.

(** Modelled from the spec: the values of the [Align] type of [./utils],
    which is not part of the source at hand; "desired alignment ∈
    {start,center,end}". *)
Definition align_value (a : Align) : string :=
  match a with
  | AlignStart => "start"
  | AlignCenter => "center"
  | AlignEnd => "end"
  end.

(** The computed [desiredPlacement]: the side, followed by a dash and the
    alignment unless the alignment is 'center'. *)
Definition desiredPlacement (i : Instance) : string :=
  side_value (side (props i))
  +:+ (if decide (align (props i) ≠ AlignCenter)
       then "-" +:+ align_value (align (props i))
       else "").

(** The values of the engine's [Placement] type. *)
Definition placements : list string :=
  [ "top"; "right"; "bottom"; "left";
    "top-start"; "top-end"; "right-start"; "right-end";
    "bottom-start"; "bottom-end"; "left-start"; "left-end" ].

(** ** Reading a middleware list *)

(** The overflow-detection keys of a step's options, for the steps that
    were given them. *)
Definition detect_options (m : Middleware) : option DetectOverflowOptions :=
  match m with
  | FloatingUI.shift o => Some (FloatingUI.shift_detect o)
  | FloatingUI.flip o => Some o
  | FloatingUI.size o => Some o
  | FloatingUI.hide o => Some (FloatingUI.hide_detect o)
  | _ => None
  end.

(** The options of the arrow steps of a list, in order. *)
Definition arrow_steps (l : list Middleware) : list FloatingUI.ArrowOptions :=
  omap (λ m, match m with FloatingUI.arrow o => Some o | _ => None end) l.

(** * Instance bookkeeping *)

Lemma call_same f i : same_but_calls (call f i) i.
Proof. by destruct f. Qed.

Lemma placed_sources_same i : same_but_calls (placed_sources i) i.
Proof. apply call_same. Qed.

Lemma on_isPositioned_same i : same_but_calls (on_isPositioned i) i.
Proof.
  unfold on_isPositioned. destruct (isPositioned (floating i)); [| done].
  apply call_same.
Qed.

Lemma same_but_calls_trans i j k :
  same_but_calls i j → same_but_calls j k → same_but_calls i k.
Proof. unfold same_but_calls. intros Hij Hjk. destruct_and!. repeat split; congruence. Qed.

(** Every field of a fresh instance but the call log, which holds the call
    made when the watcher on the positioned flag was created. *)
Lemma setup_fields (p : Props) :
  props (setup p) = p
  ∧ content (setup p) = None
  ∧ arrow (setup p) = None
  ∧ handlePlaced (setup p) = onPlaced p
  ∧ floating (setup p) = useFloating_initial
  ∧ contentZIndex (setup p) = None
  ∧ calls (setup p) = match onPlaced p with Some fn => [fn] | None => [] end.
Proof.
  unfold setup, placed_sources, useCallbackRef. simpl.
  by destruct (onPlaced p).
Qed.

Lemma setup_padding (p : Props) :
  padding (detectOverflowOptions (setup p))
  = match collisionPadding p with
    | PaddingNumber n => PaddingNumber n
    | PaddingObject o =>
        PaddingObject
          (spread
             (list_to_map
                [("top", Some 0); ("right", Some 0); ("bottom", Some 0); ("left", Some 0)])
             o)
    end.
Proof.
  unfold setup, placed_sources, useCallbackRef. simpl.
  by destruct (onPlaced p).
Qed.

(** * Configuration translator *)

Lemma filter_guard_isNotNull {A} (l : list (option A)) :
  filter_guard isNotNull l = omap id l.
Proof. induction l as [|[a|] l IH]; simpl; [done | by f_equal | done]. Qed.

(** Closes a goal saying that a name is not in a list of names that is
    known in full. *)
Ltac absent_name := apply (bool_decide_unpack _); vm_compute; exact I.

(** The pushes of [_middleware], read as one list. *)
Lemma _middleware_unfold (i : Instance) :
  _middleware i =
  ([ FloatingUI.offset
       {| FloatingUI.mainAxis := sideOffset (props i) + arrowHeight i;
          FloatingUI.alignmentAxis := alignOffset (props i) |} ]
   ++ (if avoidCollisions (props i) then
         [ FloatingUI.shift
             {| FloatingUI.shift_mainAxis := true;
                FloatingUI.shift_crossAxis := false;
                FloatingUI.limiter :=
                  if decide (sticky (props i) = StickyPartial)
                  then Some FloatingUI.limitShift else None;
                FloatingUI.shift_detect := detectOverflowOptions i |};
           FloatingUI.flip (detectOverflowOptions i) ]
       else [])
   ++ [ FloatingUI.size (detectOverflowOptions i) ]
   ++ match arrow i with
      | Some el =>
          [ FloatingUI.arrow
              {| FloatingUI.element := el;
                 FloatingUI.arrow_padding := arrowPadding (props i) |} ]
      | None => []
      end
   ++ [ FloatingUI.transformOrigin
          {| FloatingUI.arrowWidth := arrowWidth i;
             FloatingUI.arrowHeight := arrowHeight i |} ]
   ++ (if hideWhenDetached (props i) then
         [ FloatingUI.hide
             {| FloatingUI.strategy := FloatingUI.referenceHidden;
                FloatingUI.hide_detect := detectOverflowOptions i |} ]
       else []))%list.
Proof.
  unfold _middleware, push.
  destruct (avoidCollisions (props i)), (arrow i) as [el|],
    (hideWhenDetached (props i)); reflexivity.
Qed.

(** C1: whatever the props and refs hold, the steps handed to the engine
    are, in this order and with nothing else in between: offset; shift then
    flip exactly if avoidCollisions; size; arrow exactly if an arrow element
    is registered; transformOrigin; hide exactly if hideWhenDetached. *)
Theorem middleware_order_fixed (i : Instance) :
  step_names i =
  fixed_order (avoidCollisions (props i))
              (bool_decide (is_Some (arrow i)))
              (hideWhenDetached (props i)).
Proof.
  unfold step_names, fixed_order. rewrite _middleware_unfold.
  rewrite !fmap_app.
  destruct (avoidCollisions (props i)); simpl; f_equal.
  - do 3 f_equal. destruct (arrow i) as [el|]; simpl; f_equal.
    + f_equal. by destruct (hideWhenDetached (props i)).
    + by destruct (hideWhenDetached (props i)).
  - f_equal. destruct (arrow i) as [el|]; simpl; f_equal.
    + f_equal. by destruct (hideWhenDetached (props i)).
    + by destruct (hideWhenDetached (props i)).
Qed.

(** C2: without avoidCollisions the list holds no shift and no flip step,
    whatever sticky is; with avoidCollisions it holds exactly one shift
    step, with mainAxis true and crossAxis false, whose limiter is
    limitShift exactly when sticky is partial and is absent exactly when
    sticky is always, and the step right after it is the one flip step. *)
Theorem shift_flip_steps (i : Instance) :
  if avoidCollisions (props i) then
    ∃ pre post o,
      _middleware i
        = (pre ++ FloatingUI.shift o :: FloatingUI.flip (detectOverflowOptions i) :: post)%list
      ∧ FloatingUI.shift_mainAxis o = true
      ∧ FloatingUI.shift_crossAxis o = false
      ∧ ((FloatingUI.limiter o = Some FloatingUI.limitShift) ↔ (sticky (props i) = StickyPartial))
      ∧ ((FloatingUI.limiter o = None) ↔ (sticky (props i) = StickyAlways))
      ∧ FloatingUI.shift_detect o = detectOverflowOptions i
      ∧ ("shift" ∉ FloatingUI.name <$> (pre ++ post)%list)
      ∧ ("flip" ∉ FloatingUI.name <$> (pre ++ post)%list)
  else ("shift" ∉ step_names i) ∧ ("flip" ∉ step_names i).
Proof.
  unfold step_names. rewrite _middleware_unfold.
  destruct (avoidCollisions (props i)).
  - eexists [_], _, _. split; [reflexivity |].
    simpl. split; [done |]. split; [done |].
    split; [| split; [| split; [done |]]].
    + case_decide as Hs; [done |]. split; [done | by intros ?].
    + case_decide as Hs; [by rewrite Hs |]. by destruct (sticky (props i)).
    + destruct (arrow i), (hideWhenDetached (props i)); split; absent_name.
  - destruct (arrow i), (hideWhenDetached (props i)); split; absent_name.
Qed.

(** ** Collision padding *)

Lemma spread_lookup (base o : gmap string (option Z)) (k : string) :
  spread base o !! k = match o !! k with Some v => Some v | None => base !! k end.
Proof. unfold spread. rewrite lookup_union. by destruct (o !! k), (base !! k). Qed.

Lemma zero_edges_lookup (k : string) :
  (list_to_map
     [("top", Some 0); ("right", Some 0); ("bottom", Some 0); ("left", Some 0)]
   : gmap string (option Z)) !! k
  = if bool_decide (k ∈ edges) then Some (Some 0) else None.
Proof.
  destruct (bool_decide (k ∈ edges)) eqn:Hk.
  - apply bool_decide_eq_true in Hk. unfold edges in Hk.
    rewrite !elem_of_cons, elem_of_nil in Hk.
    destruct Hk as [->|[->|[->|[->|[]]]]]; reflexivity.
  - apply bool_decide_eq_false in Hk.
    by apply not_elem_of_list_to_map_1.
Qed.

(** C3, as the code has it: a bare number is put into the configuration as
    it is, a scalar and not a record; a partial record becomes a record
    that holds all four edges, each edge the caller gave with the value
    given, be it a number or undefined, and each edge whose key is absent
    with zero, and keeps any other key. *)
Theorem collisionPadding_normalized (p : Props) :
  match collisionPadding p with
  | PaddingNumber n =>
      padding (detectOverflowOptions (setup p)) = PaddingNumber n
  | PaddingObject given =>
      ∃ o, padding (detectOverflowOptions (setup p)) = PaddingObject o
        ∧ (∀ e, e ∈ edges →
             o !! e = Some match given !! e with
                           | Some value => value
                           | None => Some 0
                           end)
        ∧ (∀ k, k ∉ edges → o !! k = given !! k)
  end.
Proof.
  rewrite setup_padding. destruct (collisionPadding p) as [n|given]; [done |].
  eexists; split; [reflexivity |]. split.
  - intros e He. rewrite spread_lookup, zero_edges_lookup.
    rewrite bool_decide_eq_true_2 by done. by destruct (given !! e).
  - intros k Hk. rewrite spread_lookup, zero_edges_lookup.
    rewrite bool_decide_eq_false_2 by done. by destruct (given !! k).
Qed.

(** C3, as stated, fails for collisionPadding = 5: the configuration holds
    the number 5, not a record with 5 on each edge.  It also fails for the
    record whose top is given as undefined and whose left is 3: the top of
    the configuration's record is undefined, not zero. *)
Lemma collisionPadding_number_not_record :
  let p := with_collisionPadding (PaddingNumber 5) defaultProps in
  let given : gmap string (option Z) := {[ "top" := None; "left" := Some 3 ]} in
  let q := with_collisionPadding (PaddingObject given) defaultProps in
  padding (detectOverflowOptions (setup p)) = PaddingNumber 5
  ∧ ¬ four_edge_normalized (collisionPadding p)
        (padding (detectOverflowOptions (setup p)))
  ∧ ¬ four_edge_normalized (collisionPadding q)
        (padding (detectOverflowOptions (setup q))).
Proof.
  intros p given q. split; [reflexivity |]. split.
  - intros (o & Ho & _). discriminate Ho.
  - intros (o & Ho & Hedges).
    rewrite setup_padding in Ho. injection Ho as <-.
    specialize (Hedges "top"). rewrite spread_lookup in Hedges.
    assert (Htop : "top" ∈ edges) by absent_name.
    specialize (Hedges Htop). discriminate Hedges.
Qed.

(** ** Collision boundary *)

Lemma setup_boundary (p : Props) :
  boundary (detectOverflowOptions (setup p))
  = omap id (supplied_boundaries (collisionBoundary p)).
Proof.
  unfold setup, placed_sources, useCallbackRef. simpl.
  rewrite <- filter_guard_isNotNull.
  by destruct (onPlaced p), (collisionBoundary p).
Qed.

Lemma setup_altBoundary (p : Props) :
  altBoundary (detectOverflowOptions (setup p))
  = bool_decide (supplied_boundaries (collisionBoundary p) ≠ []).
Proof.
  unfold setup, placed_sources, useCallbackRef. simpl.
  by destruct (onPlaced p), (collisionBoundary p) as [b|[|b bs]].
Qed.

(** C4, as the code has it: altBoundary is true exactly when the caller
    supplied at least one boundary entry, null or not (a value that is not
    an array is one entry); the empty array gives false and an array of one
    element gives true; and the boundary list handed to the engine is the
    supplied entries without the null ones, in order. *)
Theorem altBoundary_iff_entries_supplied (p : Props) :
  altBoundary (detectOverflowOptions (setup p))
    = bool_decide (supplied_boundaries (collisionBoundary p) ≠ [])
  ∧ (∀ elementA,
      altBoundary (detectOverflowOptions
        (setup (with_collisionBoundary (BoundaryArray []) p))) = false
      ∧ altBoundary (detectOverflowOptions
        (setup (with_collisionBoundary (BoundaryArray [Some elementA]) p))) = true)
  ∧ boundary (detectOverflowOptions (setup p))
    = omap id (supplied_boundaries (collisionBoundary p))
  ∧ (∀ el, el ∈ boundary (detectOverflowOptions (setup p))
           ↔ Some el ∈ supplied_boundaries (collisionBoundary p)).
Proof.
  split; [| split; [| split]].
  - apply setup_altBoundary.
  - intros elementA. by rewrite !setup_altBoundary.
  - apply setup_boundary.
  - intros el. rewrite setup_boundary, list_elem_of_omap. split.
    + intros (b & Hin & Hsome). simpl in Hsome. by subst b.
    + intros Hel. by exists (Some el).
Qed.

(** C4, as stated, fails for collisionBoundary = [null]: altBoundary is
    true although the caller supplied no non-null boundary element. *)
Lemma altBoundary_true_without_element :
  let p := with_collisionBoundary (BoundaryArray [None]) defaultProps in
  altBoundary (detectOverflowOptions (setup p)) = true
  ∧ boundary (detectOverflowOptions (setup p)) = []
  ∧ ¬ ∃ el, Some el ∈ supplied_boundaries (collisionBoundary p).
Proof.
  repeat split.
  intros (el & Hel). simpl in Hel.
  apply list_elem_of_singleton in Hel. discriminate Hel.
Qed.

(** * Lifecycle and recomputation *)

(** ** What an event changes *)

(** An engine update writes the refs of [useFloating]; beyond that, its
    watcher touches the call log only. *)
Lemma step_FloatingUpdated_same window r i :
  same_but_calls (step window (FloatingUpdated r) i) (set_floating r i).
Proof.
  simpl. case_decide; [done |].
  eapply same_but_calls_trans; [apply on_isPositioned_same |].
  apply placed_sources_same.
Qed.

(** Splits a step into its kinds of event; the engine update is read off
    [step_FloatingUpdated_same]. *)
Ltac step_cases e :=
  destruct e as [p | el | sz | wrapperEl contentEl | r];
  [ done | done | done
  | simpl; by case_decide
  | match goal with |- context [step ?w (FloatingUpdated r) ?i] =>
      destruct (step_FloatingUpdated_same w r i)
        as (? & ? & ? & ? & ? & ? & ? & ? & ?)
    end; simpl in *; congruence ].

Lemma step_content window e i : content (step window e i) = content i.
Proof. step_cases e. Qed.

Lemma step_contentZIndex window e i :
  contentZIndex (step window e i) = contentZIndex i.
Proof. step_cases e. Qed.

Lemma step_detectOverflowOptions window e i :
  detectOverflowOptions (step window e i) = detectOverflowOptions i.
Proof. step_cases e. Qed.

Lemma step_handlePlaced window e i :
  handlePlaced (step window e i) = handlePlaced i.
Proof. step_cases e. Qed.

Lemma step_arrow window e i :
  arrow (step window e i)
  = match e with ArrowRegistered el => el | _ => arrow i end.
Proof. step_cases e. Qed.

Lemma step_floating window e i :
  floating (step window e i)
  = match e with FloatingUpdated r => r | _ => floating i end.
Proof. step_cases e. Qed.

(** The calls one event adds.  Only an engine update that changes the
    positioned flag adds any: one when the watcher evaluates its sources,
    and one more from its callback if the flag is now true. *)
Lemma step_calls window e i :
  calls (step window e i)
  = (calls i ++
     match e, handlePlaced i with
     | FloatingUpdated r, Some fn =>
         if decide (isPositioned r = isPositioned (floating i)) then []
         else fn :: (if isPositioned r then [fn] else [])
     | _, _ => []
     end)%list.
Proof.
  destruct e as [p | el | sz | wrapperEl contentEl | r]; simpl;
    try (destruct (handlePlaced i); by rewrite app_nil_r).
  - case_decide; destruct (handlePlaced i); by rewrite app_nil_r.
  - case_decide as Hflag.
    { destruct (handlePlaced i); by rewrite app_nil_r. }
    unfold on_isPositioned, placed_sources; simpl.
    destruct (handlePlaced i) as [fn|] eqn:Hfn; simpl;
      destruct (isPositioned r); simpl; rewrite ?Hfn; simpl;
      by rewrite ?app_nil_r, <- ?app_assoc.
Qed.

Lemma run_detectOverflowOptions window evs i :
  detectOverflowOptions (run window evs i) = detectOverflowOptions i.
Proof.
  revert i. induction evs as [|e evs IH]; intros i; simpl; [done |].
  by rewrite IH, step_detectOverflowOptions.
Qed.

Lemma run_content window evs i :
  content (run window evs i) = content i
  ∧ contentZIndex (run window evs i) = contentZIndex i.
Proof.
  revert i. induction evs as [|e evs IH]; intros i; simpl; [done |].
  destruct (IH (step window e i)) as [-> ->].
  by rewrite step_content, step_contentZIndex.
Qed.

(** Over a run the wrapped callback is called twice for each change of the
    positioned flag from false to true and once for each change back. *)
Lemma run_calls window evs i fn :
  handlePlaced i = Some fn →
  calls (run window evs i)
  = (calls i ++
     replicate (2 * rising_edges (isPositioned (floating i)) evs
                + falling_edges (isPositioned (floating i)) evs) fn)%list.
Proof.
  revert i. induction evs as [|e evs IH]; intros i Hfn; simpl.
  - by rewrite app_nil_r.
  - rewrite IH by (by rewrite step_handlePlaced).
    rewrite step_calls, Hfn, step_floating, <- app_assoc. f_equal.
    destruct e as [p | el | sz | wrapperEl contentEl | r]; try done.
    destruct (isPositioned (floating i)), (isPositioned r); simpl; try done;
      rewrite <- ?replicate_S; f_equal; lia.
Qed.

Lemma no_arrow_no_step (i : Instance) :
  arrow i = None → "arrow" ∉ step_names i.
Proof.
  intros Ha. unfold step_names. rewrite _middleware_unfold, Ha.
  destruct (avoidCollisions (props i)), (hideWhenDetached (props i)); absent_name.
Qed.

(** While no arrow element is registered and the engine reports only data
    of the steps it was given, the arrow ref and the arrow data stay empty. *)
Lemma run_without_arrow window evs i :
  arrow i = None →
  md_arrow (middlewareData (floating i)) = None →
  no_arrow_registered evs →
  engine_faithful window evs i →
  arrow (run window evs i) = None
  ∧ md_arrow (middlewareData (floating (run window evs i))) = None.
Proof.
  revert i. induction evs as [|e evs IH]; intros i Ha Hmd Hreg Heng; [done |].
  apply Forall_cons in Hreg as [He Hreg]. destruct Heng as [Hstep Heng].
  simpl. apply IH; [| | done | done].
  - rewrite step_arrow. destruct e as [| [el|] | | |]; done.
  - rewrite step_floating. destruct e; try done.
    simpl in Hstep. destruct (md_arrow (middlewareData r)) eqn:Hr; [| done].
    exfalso. by apply (no_arrow_no_step i Ha), Hstep.
Qed.

(** ** Prop changes after setup *)

(** C5, on the code: the overflow-detection configuration is computed once,
    in the body of setup, and no later event changes it.  After setup with
    the default props, a change of collisionPadding to 10 and of
    collisionBoundary to one element leaves the shift, flip and size steps
    of the recomputed list with padding 0, no boundary and altBoundary
    false, which is not the configuration of the current props. *)
Theorem detectOverflowOptions_fixed_at_setup :
  (∀ window evs p,
     detectOverflowOptions (run window evs (setup p))
     = detectOverflowOptions (setup p))
  ∧ ∀ window,
      let p1 := with_collisionPadding (PaddingNumber 10)
                  (with_collisionBoundary (BoundaryArray [Some (DomNode 7)])
                     defaultProps) in
      let stale := {| padding := PaddingNumber 0; boundary := []; altBoundary := false |} in
      let i := step window (PropsChanged p1) (setup defaultProps) in
      props i = p1
      ∧ _middleware i
        = [ FloatingUI.offset {| FloatingUI.mainAxis := 0; FloatingUI.alignmentAxis := 0 |};
            FloatingUI.shift {| FloatingUI.shift_mainAxis := true;
                                FloatingUI.shift_crossAxis := false;
                                FloatingUI.limiter := Some FloatingUI.limitShift;
                                FloatingUI.shift_detect := stale |};
            FloatingUI.flip stale;
            FloatingUI.size stale;
            FloatingUI.transformOrigin
              {| FloatingUI.arrowWidth := 0; FloatingUI.arrowHeight := 0 |} ]
      ∧ detectOverflowOptions (setup p1)
        = {| padding := PaddingNumber 10; boundary := [DomNode 7]; altBoundary := true |}
      ∧ detectOverflowOptions i ≠ detectOverflowOptions (setup p1).
Proof.
  split.
  - intros window evs p. apply run_detectOverflowOptions.
  - intros window. repeat split. discriminate.
Qed.

(** ** The placed callback *)

(** C6, on the code: handlePlaced is listed as a source of the watcher, so
    the watcher calls it whenever it evaluates its sources, whatever the
    positioned flag.  With onPlaced registered, onPlaced has been called
    once when setup returns, while the flag is false, and three times after
    the flag's first change to true; over any run it is called twice per
    change from false to true and once per change back.  An engine update
    that does not change the flag adds no call. *)
Theorem onPlaced_called_by_source_evaluation :
  let p := with_onPlaced (Some (UserFn 1)) defaultProps in
  let evs := [ Rendered (DomNode 1) (DomNode 2);
               FloatingUpdated (positioned_at 10 20 no_data) ] in
  isPositioned (floating (setup p)) = false
  ∧ calls (setup p) = [UserFn 1]
  ∧ rising_edges false evs = 1%nat
  ∧ calls (run window_z10 evs (setup p)) = [UserFn 1; UserFn 1; UserFn 1]
  ∧ (∀ window evs',
       calls (run window evs' (setup p))
       = replicate (1 + 2 * rising_edges false evs' + falling_edges false evs')
                   (UserFn 1))
  ∧ (∀ window i r,
       isPositioned r = isPositioned (floating i) →
       calls (step window (FloatingUpdated r) i) = calls i).
Proof.
  intros p evs. repeat split.
  - intros window evs'.
    destruct (setup_fields p) as (_ & _ & _ & Hfn & Hf & _ & Hc).
    rewrite (run_calls window evs' (setup p) (UserFn 1) Hfn), Hf, Hc.
    reflexivity.
  - intros window i r Hflag. rewrite step_calls.
    destruct (handlePlaced i); [| apply app_nil_r].
    rewrite decide_True by done. apply app_nil_r.
Qed.

(** ** The z-index of the wrapper *)

(** C9, on the code: the render function names only newRef, on the wrapper,
    so the content ref stays null, its watcher never runs, and the wrapper's
    z-index stays undefined after every sequence of events.  After a mount
    in a window where the content element's computed z-index is 10, the
    wrapper's z-index is undefined, not 10. *)
Theorem contentZIndex_never_read :
  (∀ window evs p,
     let i := run window evs (setup p) in
     content i = None
     ∧ contentZIndex i = None
     ∧ css_zIndex (wrapper_style (originalReturn i)) = None)
  ∧ let window := {| getComputedStyle_zIndex := λ _, "10" |} in
    let i := run window [Rendered (DomNode 1) (DomNode 2)] (setup defaultProps) in
    newRef i = Some (DomNode 1)
    ∧ getComputedStyle_zIndex window (DomNode 2) = "10"
    ∧ css_zIndex (wrapper_style (originalReturn i)) = None.
Proof.
  split.
  - intros window evs p i.
    destruct (run_content window evs (setup p)) as [Hc Hz].
    destruct (setup_fields p) as (_ & Hc0 & _ & _ & _ & Hz0 & _).
    subst i. unfold originalReturn; simpl. by rewrite Hc, Hz, Hc0, Hz0.
  - by vm_compute.
Qed.

(** ** Without an arrow element *)

(** C10: in every state reached from setup without an arrow element being
    registered, the engine reporting only data of the steps it was given,
    the list handed to the engine holds no arrow step and the arrow offsets
    given to descendants are both the string 0px. *)
Theorem no_arrow_zero_offsets (window : Window) (p : Props) (evs : list Event) :
  no_arrow_registered evs →
  engine_faithful window evs (setup p) →
  let i := run window evs (setup p) in
  ("arrow" ∉ step_names i)
  ∧ ctx_arrow (provided i) = None
  ∧ ctx_arrowX (provided i) = "0px"
  ∧ ctx_arrowY (provided i) = "0px".
Proof.
  intros Hreg Heng i.
  destruct (setup_fields p) as (_ & _ & Ha0 & _ & Hf0 & _).
  destruct (run_without_arrow window evs (setup p)) as [Ha Hmd];
    [done | by rewrite Hf0 | done | done |].
  fold i in Ha, Hmd. split; [by apply no_arrow_no_step |].
  split; [done |].
  unfold provided, arrowX, arrowY; simpl. by rewrite Hmd.
Qed.

(** * Render step *)

(** C7: while the positioned flag is false the wrapper's transform is the
    fixed value translate(0, -200%), whatever coordinates and styles the
    engine holds; while the flag is true it is the transform of the
    engine's floating styles. *)
Theorem wrapper_transform (i : Instance) :
  (isPositioned (floating i) = false →
     css_transform (wrapper_style (originalReturn i)) = Some "translate(0, -200%)")
  ∧ (isPositioned (floating i) = true →
     css_transform (wrapper_style (originalReturn i))
     = fs_transform (floatingStyles (floating i))).
Proof.
  unfold originalReturn; simpl. split; intros ->; reflexivity.
Qed.

(** * Provided context *)

(** C8, as the code has it: the flag given to descendants as shouldHideArrow
    is false exactly when the engine holds arrow data whose center offset is
    0; it is true when the arrow data reports a center offset other than 0,
    and also when the engine holds no arrow data. *)
Theorem shouldHideArrow_false_iff_centered (i : Instance) :
  (ctx_shouldHideArrow (provided i) = false
   ↔ ∃ a, md_arrow (middlewareData (floating i)) = Some a ∧ centerOffset a = 0)
  ∧ (∀ a, md_arrow (middlewareData (floating i)) = Some a → centerOffset a ≠ 0 →
          ctx_shouldHideArrow (provided i) = true)
  ∧ (md_arrow (middlewareData (floating i)) = None →
          ctx_shouldHideArrow (provided i) = true).
Proof.
  unfold provided, cannotCenterArrow; simpl.
  destruct (md_arrow (middlewareData (floating i))) as [a|]; simpl.
  - split; [| split; [| done]].
    + rewrite negb_false_iff, Z.eqb_eq. split; [by exists a |].
      by intros (a' & [= <-] & Hc).
    + intros a' [= <-] Hc. by rewrite negb_true_iff, Z.eqb_neq.
  - split; [| done]. split; [done |]. by intros (a & Ha & _).
Qed.

(** C8, as stated, fails right after setup: the engine holds no arrow data,
    so it reports no center offset at all, yet shouldHideArrow is true. *)
Lemma shouldHideArrow_true_without_arrow_data :
  let i := setup defaultProps in
  md_arrow (middlewareData (floating i)) = None
  ∧ ctx_shouldHideArrow (provided i) = true
  ∧ ¬ ∃ a, md_arrow (middlewareData (floating i)) = Some a ∧ centerOffset a ≠ 0.
Proof.
  repeat split. by intros (a & Ha & _).
Qed.

(** * The theorems at concrete inputs *)

Lemma collisionPadding_normalized_witness :
  let given : gmap string (option Z) := {[ "top" := Some 4; "right" := None ]} in
  ∃ o, padding (detectOverflowOptions
         (setup (with_collisionPadding (PaddingObject given) defaultProps)))
       = PaddingObject o
     ∧ o !! "top" = Some (Some 4)
     ∧ o !! "right" = Some None
     ∧ o !! "left" = Some (Some 0).
Proof.
  intros given.
  destruct (collisionPadding_normalized
              (with_collisionPadding (PaddingObject given) defaultProps))
    as (o & Ho & Hedges & _).
  exists o. split; [exact Ho |].
  split; [| split].
  - apply (Hedges "top"). apply (bool_decide_unpack _). vm_compute. exact I.
  - apply (Hedges "right"). apply (bool_decide_unpack _). vm_compute. exact I.
  - apply (Hedges "left"). apply (bool_decide_unpack _). vm_compute. exact I.
Defined.

Lemma altBoundary_iff_entries_supplied_witness :
  altBoundary (detectOverflowOptions
    (setup (with_collisionBoundary (BoundaryOne (Some (DomNode 3))) defaultProps))) = true
  ∧ boundary (detectOverflowOptions
      (setup (with_collisionBoundary
                (BoundaryArray [None; Some (DomNode 3); None; Some (DomNode 4)])
                defaultProps))) = [DomNode 3; DomNode 4].
Proof.
  split.
  - exact (proj1 (altBoundary_iff_entries_supplied
                    (with_collisionBoundary (BoundaryOne (Some (DomNode 3))) defaultProps))).
  - exact (proj1 (proj2 (proj2 (altBoundary_iff_entries_supplied
                    (with_collisionBoundary
                       (BoundaryArray [None; Some (DomNode 3); None; Some (DomNode 4)])
                       defaultProps))))).
Defined.

Lemma onPlaced_called_by_source_evaluation_witness :
  let i1 := set_floating (positioned_at 10 20 no_data)
              (setup (with_onPlaced (Some (UserFn 1)) defaultProps)) in
  calls (step window_z10 (FloatingUpdated (positioned_at 10 35 no_data)) i1) = calls i1.
Proof.
  intros i1.
  apply (proj2 (proj2 (proj2 (proj2 (proj2 onPlaced_called_by_source_evaluation))))
           window_z10 i1 (positioned_at 10 35 no_data)).
  reflexivity.
Defined.

Lemma wrapper_transform_witness :
  css_transform (wrapper_style (originalReturn (setup defaultProps)))
    = Some "translate(0, -200%)"
  ∧ css_transform (wrapper_style (originalReturn
      (set_floating (positioned_at 10 20 no_data) (setup defaultProps))))
    = Some "translate(10px, 20px)".
Proof.
  split.
  - apply (proj1 (wrapper_transform (setup defaultProps))). reflexivity.
  - apply (proj2 (wrapper_transform
             (set_floating (positioned_at 10 20 no_data) (setup defaultProps)))).
    reflexivity.
Defined.

Lemma shouldHideArrow_false_iff_centered_witness :
  ctx_shouldHideArrow (provided
    (set_floating (positioned_at 10 20 (arrow_data 6 0)) (setup defaultProps))) = false
  ∧ ctx_shouldHideArrow (provided
    (set_floating (positioned_at 10 20 (arrow_data 6 3)) (setup defaultProps))) = true.
Proof.
  split.
  - apply (proj1 (shouldHideArrow_false_iff_centered
             (set_floating (positioned_at 10 20 (arrow_data 6 0)) (setup defaultProps)))).
    eexists. split; reflexivity.
  - apply (proj1 (proj2 (shouldHideArrow_false_iff_centered
             (set_floating (positioned_at 10 20 (arrow_data 6 3)) (setup defaultProps))))
             {| arrow_x := Some 6; arrow_y := None; centerOffset := 3 |});
      [reflexivity | discriminate].
Defined.

Lemma no_arrow_zero_offsets_witness :
  let evs := [ Rendered (DomNode 1) (DomNode 2);
               ArrowRegistered None;
               ArrowMeasured None;
               FloatingUpdated (positioned_at 10 20 no_data) ] in
  let i := run window_z10 evs (setup defaultProps) in
  no_arrow_registered evs
  ∧ engine_faithful window_z10 evs (setup defaultProps)
  ∧ ("arrow" ∉ step_names i)
  ∧ ctx_arrow (provided i) = None
  ∧ ctx_arrowX (provided i) = "0px"
  ∧ ctx_arrowY (provided i) = "0px".
Proof.
  intros evs i.
  assert (Hreg : no_arrow_registered evs) by (repeat constructor).
  assert (Heng : engine_faithful window_z10 evs (setup defaultProps)).
  { simpl. repeat split. intros [a Ha]. discriminate Ha. }
  split; [exact Hreg |]. split; [exact Heng |].
  exact (no_arrow_zero_offsets window_z10 defaultProps evs Hreg Heng).
Defined.

(** * Further properties *)

(** ** The requested placement *)

(** X1: the requested placement is one of the engine's placements, and it
    determines the requested side and alignment: two instances with the
    same requested placement have the same side and the same alignment. *)
Theorem desiredPlacement_valid_and_injective (i : Instance) :
  desiredPlacement i ∈ placements
  ∧ ∀ j, desiredPlacement i = desiredPlacement j →
         side (props i) = side (props j) ∧ align (props i) = align (props j).
Proof.
  unfold desiredPlacement. split.
  - destruct (side (props i)), (align (props i)); absent_name.
  - intros j.
    destruct (side (props i)), (align (props i)),
      (side (props j)), (align (props j)); simpl; intros H;
      first [done | discriminate H].
Qed.

(** ** The middleware list, step by step *)

(** Decides a closed statement about names and lists that are known in
    full. *)
Ltac by_evaluation := apply (bool_decide_unpack _); vm_compute; exact I.

(** The list is a function of the props, the arrow ref, the arrow's size
    and the configuration computed in setup, and of nothing else. *)
Lemma _middleware_ext (i j : Instance) :
  props i = props j → arrow i = arrow j → arrowSize i = arrowSize j →
  detectOverflowOptions i = detectOverflowOptions j →
  _middleware i = _middleware j.
Proof.
  intros Hp Ha Hs Hd. unfold _middleware, arrowWidth, arrowHeight.
  by rewrite Hp, Ha, Hs, Hd.
Qed.

(** X2: every step of the list that takes overflow-detection options
    (shift, flip, size, hide) takes the same ones, the configuration of the
    instance. *)
Theorem overflow_options_shared (i : Instance) (m : Middleware)
    (o : DetectOverflowOptions) :
  m ∈ _middleware i → detect_options m = Some o → o = detectOverflowOptions i.
Proof.
  rewrite _middleware_unfold.
  destruct (avoidCollisions (props i)), (arrow i), (hideWhenDetached (props i));
    simpl; rewrite ?elem_of_cons, elem_of_nil; intros Hm Ho;
    repeat (destruct Hm as [-> | Hm]; [simpl in Ho; congruence |]); done.
Qed.

(** X3: no two steps of the list have the same name, and the list has
    three steps plus two if avoidCollisions, one if an arrow element is
    registered and one if hideWhenDetached: never fewer than three, never
    more than seven. *)
Theorem middleware_steps_distinct (i : Instance) :
  NoDup (step_names i)
  ∧ length (_middleware i)
    = (3 + (if avoidCollisions (props i) then 2 else 0)
         + (match arrow i with Some _ => 1 | None => 0 end)
         + (if hideWhenDetached (props i) then 1 else 0))%nat
  ∧ (3 ≤ length (_middleware i) ≤ 7)%nat.
Proof.
  unfold step_names. rewrite _middleware_unfold.
  destruct (avoidCollisions (props i)), (arrow i), (hideWhenDetached (props i));
    simpl; (split; [by_evaluation | split; [reflexivity | lia]]).
Qed.

(** X4: once a descendant has written the arrow ref, the arrow steps of
    the list are exactly one step, for the element written and with the
    arrowPadding prop, if an element was written, and none at all if null
    was written. *)
Theorem arrow_step_follows_registration (window : Window) (i : Instance)
    (el : option Element) :
  arrow_steps (_middleware (step window (ArrowRegistered el) i))
  = match el with
    | Some e =>
        [ {| FloatingUI.element := e;
             FloatingUI.arrow_padding := arrowPadding (props i) |} ]
    | None => []
    end.
Proof.
  rewrite _middleware_unfold. simpl.
  destruct (avoidCollisions (props i)), el as [e|], (hideWhenDetached (props i));
    reflexivity.
Qed.

(** X6: neither an engine update nor a render changes the list handed to
    the engine or the requested placement, so the engine's results never
    feed back into its own configuration. *)
Theorem engine_results_do_not_feed_back (window : Window) (i : Instance) :
  (∀ r, _middleware (step window (FloatingUpdated r) i) = _middleware i
        ∧ desiredPlacement (step window (FloatingUpdated r) i) = desiredPlacement i)
  ∧ (∀ wrapperEl contentEl,
        _middleware (step window (Rendered wrapperEl contentEl) i) = _middleware i
        ∧ desiredPlacement (step window (Rendered wrapperEl contentEl) i)
          = desiredPlacement i).
Proof.
  split.
  - intros r.
    destruct (step_FloatingUpdated_same window r i)
      as (Hp & _ & _ & Ha & Hs & Hd & _).
    split; [by apply _middleware_ext |].
    unfold desiredPlacement. by rewrite Hp.
  - intros wrapperEl contentEl. simpl. by case_decide.
Qed.

(** X7: the props read inside the computed list do follow a prop change:
    after new props arrive, the steps present, the offset's alignment
    axis, the shift limiter, the arrow padding and the requested placement
    are those of the new props. *)
Theorem prop_changes_reach_middleware (window : Window) (p' : Props) (i : Instance) :
  let i' := step window (PropsChanged p') i in
  step_names i'
    = fixed_order (avoidCollisions p') (bool_decide (is_Some (arrow i)))
                  (hideWhenDetached p')
  ∧ (∀ o, FloatingUI.offset o ∈ _middleware i' →
          FloatingUI.alignmentAxis o = alignOffset p')
  ∧ (∀ o, FloatingUI.shift o ∈ _middleware i' →
          FloatingUI.limiter o
          = if decide (sticky p' = StickyPartial) then Some FloatingUI.limitShift else None)
  ∧ (∀ o, FloatingUI.arrow o ∈ _middleware i' →
          FloatingUI.arrow_padding o = arrowPadding p')
  ∧ desiredPlacement i'
    = side_value (side p')
      +:+ (if decide (align p' ≠ AlignCenter) then "-" +:+ align_value (align p') else "").
Proof.
  intros i'. subst i'. unfold step_names. rewrite _middleware_unfold.
  change (step window (PropsChanged p') i) with (set_props p' i).
  simpl.
  split; [| split; [| split; [| split; [| done]]]].
  - unfold fixed_order.
    destruct (avoidCollisions p'), (arrow i), (hideWhenDetached p'); reflexivity.
  - intros o.
    destruct (avoidCollisions p'), (arrow i), (hideWhenDetached p');
      simpl; rewrite ?elem_of_cons, elem_of_nil; intros Hm;
      repeat (destruct Hm as [Hm | Hm]; [try discriminate Hm |]); try done;
      by injection Hm as ->.
  - intros o.
    destruct (avoidCollisions p'), (arrow i), (hideWhenDetached p');
      simpl; rewrite ?elem_of_cons, elem_of_nil; intros Hm;
      repeat (destruct Hm as [Hm | Hm]; [try discriminate Hm |]); try done;
      by injection Hm as ->.
  - intros o.
    destruct (avoidCollisions p'), (arrow i), (hideWhenDetached p');
      simpl; rewrite ?elem_of_cons, elem_of_nil; intros Hm;
      repeat (destruct Hm as [Hm | Hm]; [try discriminate Hm |]); try done;
      by injection Hm as ->.
Qed.

(** ** The configuration computed in setup *)

(** X8: whenever the engine is handed a boundary list that is not empty,
    altBoundary is true. *)
Theorem boundary_elements_imply_altBoundary (p : Props) :
  boundary (detectOverflowOptions (setup p)) ≠ [] →
  altBoundary (detectOverflowOptions (setup p)) = true.
Proof.
  rewrite setup_boundary, setup_altBoundary. intros Hb.
  apply bool_decide_eq_true. intros Hs. by rewrite Hs in Hb.
Qed.

Lemma with_collisionPadding_padding (v : Padding) (p : Props) :
  padding (detectOverflowOptions (setup (with_collisionPadding v p)))
  = match v with
    | PaddingNumber n => PaddingNumber n
    | PaddingObject o =>
        PaddingObject
          (spread
             (list_to_map
                [("top", Some 0); ("right", Some 0); ("bottom", Some 0); ("left", Some 0)])
             o)
    end.
Proof. by rewrite setup_padding. Qed.

(** X9: normalizing the collision padding is idempotent: handing the
    padding found in the configuration back as the collisionPadding prop
    gives the same padding again. *)
Theorem collisionPadding_normalization_idempotent (p : Props) :
  padding (detectOverflowOptions
    (setup (with_collisionPadding (padding (detectOverflowOptions (setup p))) p)))
  = padding (detectOverflowOptions (setup p)).
Proof.
  rewrite with_collisionPadding_padding, setup_padding.
  destruct (collisionPadding p) as [n|given]; [done |].
  f_equal. apply map_eq. intros k. rewrite !spread_lookup, zero_edges_lookup.
  destruct (given !! k); [done |]. by case_bool_decide.
Qed.

(** X10: a collisionPadding record that gives all four edges reaches the
    configuration unchanged. *)
Theorem collisionPadding_full_record_kept (p : Props)
    (given : gmap string (option Z)) :
  collisionPadding p = PaddingObject given →
  (∀ e, e ∈ edges → is_Some (given !! e)) →
  padding (detectOverflowOptions (setup p)) = PaddingObject given.
Proof.
  intros Hp Hfull. rewrite setup_padding, Hp. f_equal.
  apply map_eq. intros k. rewrite spread_lookup, zero_edges_lookup.
  destruct (given !! k) as [v|] eqn:Hk; [done |].
  case_bool_decide as He; [| done].
  destruct (Hfull k He) as [v Hv]. congruence.
Qed.

(** ** The lifecycle *)

Lemma run_calls_none window evs i :
  handlePlaced i = None → calls (run window evs i) = calls i.
Proof.
  revert i. induction evs as [|e evs IH]; intros i Hfn; simpl; [done |].
  rewrite IH by (by rewrite step_handlePlaced).
  rewrite step_calls, Hfn. destruct e; apply app_nil_r.
Qed.

(** X11: every call the component ever makes is a call of the onPlaced
    callback it was given at setup: a callback passed by a later prop
    change is never called, and without a callback at setup nothing is
    ever called. *)
Theorem only_the_setup_callback_is_called (window : Window) (evs : list Event)
    (p : Props) :
  Forall (λ c, onPlaced p = Some c) (calls (run window evs (setup p))).
Proof.
  destruct (setup_fields p) as (_ & _ & _ & Hfn & _ & _ & Hc).
  destruct (onPlaced p) as [fn|] eqn:Hp.
  - rewrite (run_calls window evs (setup p) fn Hfn), Hc.
    apply Forall_app. split; [by repeat constructor |].
    apply Forall_forall. by intros c ->%elem_of_replicate_inv.
  - rewrite (run_calls_none window evs (setup p) Hfn), Hc. constructor.
Qed.

(** X12: the element ref handed to the engine as the floating element is
    the wrapper element of the latest render: a render binds it to the
    wrapper, never to the content element, and no other event changes it. *)
Theorem newRef_is_rendered_wrapper (window : Window) (e : Event) (i : Instance) :
  newRef (step window e i)
  = match e with
    | Rendered wrapperEl _ => Some wrapperEl
    | _ => newRef i
    end.
Proof.
  destruct e as [p | el | sz | wrapperEl contentEl | r]; try done.
  - simpl. by case_decide.
  - by destruct (step_FloatingUpdated_same window r i) as (_ & _ & -> & _).
Qed.

(** X13: in every state reached from setup without an arrow element being
    registered, the engine reporting only data of the steps it was given,
    the flag given to descendants as shouldHideArrow is true. *)
Theorem no_arrow_hides_arrow (window : Window) (p : Props) (evs : list Event) :
  no_arrow_registered evs →
  engine_faithful window evs (setup p) →
  ctx_shouldHideArrow (provided (run window evs (setup p))) = true.
Proof.
  intros Hreg Heng.
  destruct (setup_fields p) as (_ & _ & Ha0 & _ & Hf0 & _).
  destruct (run_without_arrow window evs (setup p)) as [_ Hmd];
    [done | by rewrite Hf0 | done | done |].
  unfold provided, cannotCenterArrow; simpl. by rewrite Hmd.
Qed.

(** ** The render step *)

(** X14: the content's animation is set to none exactly while the position
    is not yet known, and is left unset otherwise; whenever it is none,
    the wrapper is at the off-screen transform. *)
Theorem animation_suppressed_until_placed (i : Instance) :
  (css_animation (content_style (originalReturn i)) = Some "none"
   ↔ isPositioned (floating i) = false)
  ∧ (css_animation (content_style (originalReturn i)) = None
     ↔ isPositioned (floating i) = true)
  ∧ (css_animation (content_style (originalReturn i)) = Some "none" →
     css_transform (wrapper_style (originalReturn i)) = Some "translate(0, -200%)").
Proof.
  unfold originalReturn; simpl.
  destruct (isPositioned (floating i)); simpl;
    (split; [| split]); try split; intros; congruence.
Qed.

(** X15: the content's opacity is 0 exactly when the engine's hide data
    reports referenceHidden as true; without hide data, or with
    referenceHidden false or undefined, the opacity is left unset. *)
Theorem opacity_zero_iff_reference_hidden (i : Instance) :
  (css_opacity (content_style (originalReturn i)) = Some 0
   ↔ ∃ h, md_hide (middlewareData (floating i)) = Some h
          ∧ referenceHidden h = Some true)
  ∧ (css_opacity (content_style (originalReturn i)) = None
     ↔ ¬ ∃ h, md_hide (middlewareData (floating i)) = Some h
              ∧ referenceHidden h = Some true).
Proof.
  unfold originalReturn; simpl.
  destruct (md_hide (middlewareData (floating i))) as [[[[|]|]]|]; simpl.
  - split; split; [intros _; by eexists | done | done |].
    intros Hn. exfalso. apply Hn. by eexists.
  - split; split; [done | | intros _ | done]; by intros (h & [= <-] & Hr).
  - split; split; [done | | intros _ | done]; by intros (h & [= <-] & Hr).
  - split; split; [done | | intros _ | done]; by intros (h & Hh & Hr).
Qed.

(** X18: the custom property --oku-popper-transform-origin is the x and y
    of the engine's transformOrigin data separated by one space; while the
    engine holds no such data it is a single space, and it is never the
    empty string. *)
Theorem transform_origin_property (i : Instance) :
  css_transform_origin (wrapper_style (originalReturn i))
    = match md_transformOrigin (middlewareData (floating i)) with
      | Some d => origin_x d +:+ " " +:+ origin_y d
      | None => " "
      end
  ∧ css_transform_origin (wrapper_style (originalReturn i)) ≠ "".
Proof.
  unfold originalReturn, join_space; simpl.
  destruct (md_transformOrigin (middlewareData (floating i))) as [d|]; simpl.
  - split; [done |]. intros Heq. apply (f_equal String.length) in Heq.
    revert Heq. generalize (origin_x d).
    intros s. induction s as [|c s IH]; simpl; [done | lia].
  - done.
Qed.

(** * The further properties at concrete inputs *)

Lemma desiredPlacement_valid_and_injective_witness :
  desiredPlacement (setup defaultProps) = "bottom"
  ∧ side (props (setup defaultProps))
    = side (props (set_arrow (Some (DomNode 5)) (setup defaultProps))).
Proof.
  split; [reflexivity |].
  apply (proj2 (desiredPlacement_valid_and_injective (setup defaultProps))
           (set_arrow (Some (DomNode 5)) (setup defaultProps))).
  reflexivity.
Defined.

Lemma overflow_options_shared_witness :
  let i := setup (with_collisionPadding (PaddingNumber 8)
                    (with_collisionBoundary (BoundaryOne (Some (DomNode 3)))
                       defaultProps)) in
  {| padding := PaddingNumber 8; boundary := [DomNode 3]; altBoundary := true |}
  = detectOverflowOptions i.
Proof.
  intros i.
  apply (overflow_options_shared i
           (FloatingUI.flip
              {| padding := PaddingNumber 8; boundary := [DomNode 3];
                 altBoundary := true |})).
  - apply list_elem_of_lookup. by exists 2%nat.
  - reflexivity.
Defined.

Lemma prop_changes_reach_middleware_witness :
  let i := set_arrow (Some (DomNode 9)) (setup defaultProps) in
  let i' := step window_z10 (PropsChanged changedProps) i in
  step_names i = ["offset"; "shift"; "flip"; "size"; "arrow"; "transformOrigin"]
  ∧ step_names i'
    = ["offset"; "shift"; "flip"; "size"; "arrow"; "transformOrigin"; "hide"]
  ∧ (∃ o, _middleware i !! 1%nat = Some (FloatingUI.shift o)
          ∧ FloatingUI.limiter o = Some FloatingUI.limitShift)
  ∧ (∃ o, _middleware i' !! 1%nat = Some (FloatingUI.shift o)
          ∧ FloatingUI.limiter o = None)
  ∧ (∃ o, _middleware i' !! 4%nat = Some (FloatingUI.arrow o)
          ∧ FloatingUI.arrow_padding o = 4)
  ∧ desiredPlacement i = "bottom"
  ∧ desiredPlacement i' = "top-start".
Proof.
  intros i i'.
  destruct (prop_changes_reach_middleware window_z10 changedProps i)
    as (Hnames & _ & Hshift & Harrow & Hplacement).
  split; [reflexivity |]. split; [exact Hnames |].
  split; [eexists; split; reflexivity |].
  split; [| split; [| split; [reflexivity | exact Hplacement]]].
  - eexists. split; [reflexivity |].
    apply Hshift. apply list_elem_of_lookup. by exists 1%nat.
  - eexists. split; [reflexivity |].
    apply Harrow. apply list_elem_of_lookup. by exists 4%nat.
Defined.

Lemma boundary_elements_imply_altBoundary_witness :
  let p := with_collisionBoundary (BoundaryArray [None; Some (DomNode 3)]) defaultProps in
  boundary (detectOverflowOptions (setup p)) = [DomNode 3]
  ∧ altBoundary (detectOverflowOptions (setup p)) = true.
Proof.
  intros p. split; [reflexivity |].
  apply (boundary_elements_imply_altBoundary p). discriminate.
Defined.

Lemma collisionPadding_full_record_kept_witness :
  let given : gmap string (option Z) :=
    list_to_map
      [("top", Some 1); ("right", Some 2); ("bottom", Some 3); ("left", Some 4)] in
  padding (detectOverflowOptions
    (setup (with_collisionPadding (PaddingObject given) defaultProps)))
  = PaddingObject given.
Proof.
  intros given.
  apply (collisionPadding_full_record_kept
           (with_collisionPadding (PaddingObject given) defaultProps) given).
  - reflexivity.
  - intros e He. unfold edges in He.
    rewrite !elem_of_cons, elem_of_nil in He.
    destruct He as [->|[->|[->|[->|[]]]]]; eexists; reflexivity.
Defined.

Lemma no_arrow_hides_arrow_witness :
  let evs := [ Rendered (DomNode 1) (DomNode 2);
               PropsChanged defaultProps;
               FloatingUpdated (positioned_at 10 20 no_data) ] in
  no_arrow_registered evs
  ∧ engine_faithful window_z10 evs (setup defaultProps)
  ∧ ctx_shouldHideArrow (provided (run window_z10 evs (setup defaultProps))) = true.
Proof.
  intros evs.
  assert (Hreg : no_arrow_registered evs) by (repeat constructor).
  assert (Heng : engine_faithful window_z10 evs (setup defaultProps)).
  { simpl. repeat split. intros [a Ha]. discriminate Ha. }
  split; [exact Hreg |]. split; [exact Heng |].
  exact (no_arrow_hides_arrow window_z10 defaultProps evs Hreg Heng).
Defined.

Lemma animation_suppressed_until_placed_witness :
  css_transform (wrapper_style (originalReturn (setup defaultProps)))
  = Some "translate(0, -200%)".
Proof.
  apply (proj2 (proj2 (animation_suppressed_until_placed (setup defaultProps)))).
  reflexivity.
Defined.
